(** * SecurePass: a shallow embedding of [project3.py]

    The program is one class, [PasswordGenerator], with a configuration held
    in the fields of [self], a generator that draws characters from the
    operating system's entropy pool, a strength assessor, a renderer for the
    strength meter and a command-line driver.  Its methods read and write
    [self], print to standard output, draw random numbers and raise
    exceptions; they are embedded in a state-and-exception monad over a
    [world] that holds exactly these three pieces of state. *)

From Stdlib Require Import ZArith List String Ascii Bool Lia DecimalString.
Import ListNotations.
Open Scope Z_scope.

(** * Python values *)

Module Py.

(** A Python [str] is a sequence of Unicode code points. *)
Definition codepoint := N.
Definition str := list codepoint.

(** An ASCII literal of the source, as a [str]. *)
Definition lit (s : string) : str := map N_of_ascii (list_ascii_of_string s).

(** Characters of the source's literals that a literal here cannot hold. *)
Definition ESC : str := [27%N].        (* \033 *)
Definition NL : str := [10%N].         (* \n *)
Definition QUOTE : str := [34%N].      (* the double quote *)
Definition FULL_BLOCK : str := [9608%N]. (* U+2588 *)

(** [len(s)] *)
Definition len {A} (s : list A) : Z := Z.of_nat (List.length s).

(** [s * n]: no copy for [n <= 0]. *)
Definition mul (s : str) (n : Z) : str := List.concat (repeat s (Z.to_nat n)).

(** [sep.join(parts)] *)
Fixpoint join (sep : str) (parts : list str) : str :=
  match parts with
  | [] => []
  | [p] => p
  | p :: ps => p ++ sep ++ join sep ps
  end.

(** [str(n)] for an [int]. *)
Definition str_of_int (n : Z) : str := lit (NilZero.string_of_int (Z.to_int n)).

(** [any(f(c) for c in s)] *)
Fixpoint any {A} (f : A -> bool) (s : list A) : bool :=
  match s with
  | [] => false
  | c :: s' => if f c then true else any f s'
  end.

(** [c in s] for a one-character [c]. *)
Definition contains (s : str) (c : codepoint) : bool := any (N.eqb c) s.

(** The truth value of a sequence: non-empty. *)
Definition truthy {A} (s : list A) : bool :=
  match s with [] => false | _ :: _ => true end.

(** The characters [str.strip()] removes: Python's Unicode whitespace. *)
Definition isspace (c : codepoint) : bool :=
  ((9 <=? c) && (c <=? 13) || (28 <=? c) && (c <=? 32)
   || (c =? 133) || (c =? 160) || (c =? 5760)
   || (8192 <=? c) && (c <=? 8202)
   || (c =? 8232) || (c =? 8233) || (c =? 8239) || (c =? 8287)
   || (c =? 12288))%N.

Fixpoint lstrip (s : str) : str :=
  match s with
  | c :: s' => if isspace c then lstrip s' else s
  | [] => []
  end.

Definition strip (s : str) : str := rev (lstrip (rev (lstrip s))).

(** The character classes of [str.isupper], [str.islower] and
    [str.isdigit] on one-character strings come from the interpreter's
    Unicode database.  The program is verified against any database that
    classifies the ASCII range the way Unicode does. *)
Class UnicodeData := {
  isupper : codepoint -> bool;
  islower : codepoint -> bool;
  isdigit : codepoint -> bool;
  isupper_ascii : forall c, (c < 128)%N ->
    isupper c = ((65 <=? c) && (c <=? 90))%N;
  islower_ascii : forall c, (c < 128)%N ->
    islower c = ((97 <=? c) && (c <=? 122))%N;
  isdigit_ascii : forall c, (c < 128)%N ->
    isdigit c = ((48 <=? c) && (c <=? 57))%N
}.

(** Exceptions the program can meet.  [SystemExit] derives from
    [BaseException] only, so [except Exception] lets it through. *)
Inductive exn :=
| ValueError (msg : str)
| IndexError (msg : str)
| KeyError (key : Z)
| SystemExit (code : Z).

Definition is_Exception (e : exn) : bool :=
  match e with SystemExit _ => false | _ => true end.

(** [str(e)] *)
Definition str_of_exn (e : exn) : str :=
  match e with
  | ValueError msg | IndexError msg => msg
  | KeyError key | SystemExit key => str_of_int key
  end.

End Py.

(** The constants of Python's [string] module. *)
Module PyString.
Import Py.

Definition ascii_uppercase : str := lit "ABCDEFGHIJKLMNOPQRSTUVWXYZ".
Definition ascii_lowercase : str := lit "abcdefghijklmnopqrstuvwxyz".
Definition digits : str := lit "0123456789".
Definition punctuation : str :=
  lit "!" ++ QUOTE ++ lit "#$%&'()*+,-./:;<=>?@[\]^_`{|}~".

End PyString.

(** * The enumeration of strength levels *)

Inductive PasswordStrength :=
| VERY_WEAK
| WEAK
| MEDIUM
| STRONG
| VERY_STRONG.

(** The [.value] of a member. *)
Definition value (s : PasswordStrength) : Z :=
  match s with
  | VERY_WEAK => 0
  | WEAK => 1
  | MEDIUM => 2
  | STRONG => 3
  | VERY_STRONG => 4
  end.

(** * The parsed command line *)

(** What [parser.parse_args] returns: one attribute per declared argument. *)
Module Namespace.

Record t := mk {
  length : Z;
  include_uppercase : bool;
  include_lowercase : bool;
  include_numbers : bool;
  include_symbols : bool;
  help : bool
}.

End Namespace.

(** * The generator *)

Module PasswordGenerator.
Import Py.

(** The fields of [self]. *)
Record t := mk {
  length : Z;
  include_uppercase : bool;
  include_lowercase : bool;
  include_numbers : bool;
  include_symbols : bool;
  min_length : Z;
  max_length : Z
}.

Definition __init__ : t :=
  {| length := 12;
     include_uppercase := true;
     include_lowercase := true;
     include_numbers := true;
     include_symbols := true;
     min_length := 6;
     max_length := 32 |}.

(** The entropy pool behind [random.SystemRandom]: an unbounded tape of raw
    draws and the number of draws consumed so far.  Every sequence of
    outcomes is the reading of some tape. *)
Record entropy := mkEntropy {
  tape : nat -> nat;
  cursor : nat
}.

(** What a method can read and change. *)
Record world := mkWorld {
  self : t;
  urandom : entropy;
  stdout : str
}.

Inductive outcome (A : Type) :=
| Return (a : A)
| Raise (e : exn).
Arguments Return {A} a.
Arguments Raise {A} e.

Definition M (A : Type) : Type := world -> outcome A * world.

Definition ret {A} (a : A) : M A := fun w => (Return a, w).

Definition bind {A B} (m : M A) (k : A -> M B) : M B :=
  fun w =>
    match m w with
    | (Return a, w') => k a w'
    | (Raise e, w') => (Raise e, w')
    end.

Definition raise {A} (e : exn) : M A := fun w => (Raise e, w).

(** [try: body except Exception as e: handler] *)
Definition try_except {A} (body : M A) (handler : exn -> M A) : M A :=
  fun w =>
    match body w with
    | (Raise e, w') =>
        if is_Exception e then handler e w' else (Raise e, w')
    | r => r
    end.

Definition get_self : M t := fun w => (Return (self w), w).

Definition set_self (f : t -> t) : M unit :=
  fun w => (Return tt, {| self := f (self w);
                          urandom := urandom w;
                          stdout := stdout w |}).

(** [print(s)] *)
Definition print (s : str) : M unit :=
  fun w => (Return tt, {| self := self w;
                          urandom := urandom w;
                          stdout := stdout w ++ s ++ NL |}).

(** [sys.exit(code)] *)
Definition sys_exit {A} (code : Z) : M A := raise (SystemExit code).

Declare Scope py_scope.
Delimit Scope py_scope with py.
Notation "x <- m ;; k" := (bind m (fun x => k))
  (at level 61, m at next level, right associativity) : py_scope.
Notation "m ;; k" := (bind m (fun _ => k))
  (at level 61, right associativity) : py_scope.
Open Scope py_scope.

(** [range(n)] *)
Definition range (n : Z) : list Z := map Z.of_nat (seq 0 (Z.to_nat n)).

(** The generator expression [body(i) for i in xs], consumed in order. *)
Fixpoint for_each {A B} (xs : list A) (body : A -> M B) : M (list B) :=
  match xs with
  | [] => ret []
  | x :: xs' =>
      b <- body x ;;
      bs <- for_each xs' body ;;
      ret (b :: bs)
  end.

(** One draw below [n] from the entropy pool. *)
Definition randbelow (n : nat) : M nat :=
  fun w =>
    let e := urandom w in
    (Return (tape e (cursor e) mod n)%nat,
     {| self := self w;
        urandom := {| tape := tape e; cursor := S (cursor e) |};
        stdout := stdout w |}).

(** [random.SystemRandom().choice(seq)] *)
Definition choice (seq : str) : M str :=
  if negb (truthy seq)
  then raise (IndexError (lit "Cannot choose from an empty sequence"))
  else
    i <- randbelow (List.length seq) ;;
    ret [nth i seq 0%N].

(** [dict[key]] on a dictionary display with integer keys. *)
Fixpoint getitem (d : list (Z * str)) (key : Z) : M str :=
  match d with
  | [] => raise (KeyError key)
  | (k, v) :: d' => if k =? key then ret v else getitem d' key
  end.

(** [PasswordStrength(v)]: the member whose value is [v]. *)
Definition PasswordStrength_of (v : Z) : M PasswordStrength :=
  if v =? 0 then ret VERY_WEAK
  else if v =? 1 then ret WEAK
  else if v =? 2 then ret MEDIUM
  else if v =? 3 then ret STRONG
  else if v =? 4 then ret VERY_STRONG
  else raise (ValueError (str_of_int v ++ lit " is not a valid PasswordStrength")).

Definition no_charset_message : str :=
  lit "At least one character type must be selected".

Definition generate_password : M str :=
  g <- get_self ;;
  let charset := lit "" in
  let charset :=
    if include_uppercase g then charset ++ PyString.ascii_uppercase
    else charset in
  let charset :=
    if include_lowercase g then charset ++ PyString.ascii_lowercase
    else charset in
  let charset :=
    if include_numbers g then charset ++ PyString.digits else charset in
  let charset :=
    if include_symbols g then charset ++ PyString.punctuation
    else charset in
  if negb (truthy charset) then raise (ValueError no_charset_message)
  else
    picks <- for_each (range (length g)) (fun _ => choice charset) ;;
    ret (join (lit "") picks).

Section Assessor.
Context {unicode : UnicodeData}.

Definition assess_strength (password : str) : M PasswordStrength :=
  let strength := 0 in
  let strength :=
    if len password >=? 12 then strength + 1 else strength in
  let strength :=
    if len password >=? 16 then strength + 1 else strength in
  let strength :=
    if any isupper password then strength + 1 else strength in
  let strength :=
    if any islower password then strength + 1 else strength in
  let strength :=
    if any isdigit password then strength + 1 else strength in
  let strength :=
    if any (contains PyString.punctuation) password
    then strength + 1 else strength in
  PasswordStrength_of (Z.min strength 4).

End Assessor.

Definition colors : list (Z * str) :=
  [ (0, ESC ++ lit "[91m");
    (1, ESC ++ lit "[93m");
    (2, ESC ++ lit "[33m");
    (3, ESC ++ lit "[92m");
    (4, ESC ++ lit "[92m") ].

Definition strength_text : list (Z * str) :=
  [ (0, lit "Very Weak");
    (1, lit "Weak");
    (2, lit "Medium");
    (3, lit "Strong");
    (4, lit "Very Strong") ].

(** The bar between the brackets of the meter. *)
Definition meter_of (strength : PasswordStrength) : str :=
  lit "[" ++ mul FULL_BLOCK (value strength + 1)
          ++ mul (lit " ") (4 - value strength) ++ lit "]".

Definition print_strength_meter (strength : PasswordStrength) : M unit :=
  print (NL ++ lit "Password Strength:") ;;
  let meter := meter_of strength in
  color <- getitem colors (value strength) ;;
  text <- getitem strength_text (value strength) ;;
  print (color ++ meter ++ lit " " ++ text ++ ESC ++ lit "[0m").

Definition display_help : M unit :=
  print (NL ++ lit "SecurePass - Professional Password Generator") ;;
  print (mul (lit "=") 45) ;;
  print (NL ++ lit "Usage:") ;;
  print (lit "  securepass [options]") ;;
  print (NL ++ lit "Options:") ;;
  print (lit "  -l, --length LENGTH    Password length (6-32, default: 12)") ;;
  print (lit "  --no-upper             Exclude uppercase letters") ;;
  print (lit "  --no-lower             Exclude lowercase letters") ;;
  print (lit "  --no-numbers           Exclude numbers") ;;
  print (lit "  --no-symbols           Exclude symbols") ;;
  print (lit "  -h, --help             Show this help message") ;;
  print (NL ++ lit "Example:") ;;
  print (lit "  securepass -l 16 --no-symbols").

(** Assignments to the fields of [self]. *)
Definition set_length (v : Z) (g : t) : t :=
  mk v (include_uppercase g) (include_lowercase g) (include_numbers g)
     (include_symbols g) (min_length g) (max_length g).
Definition set_include_uppercase (v : bool) (g : t) : t :=
  mk (length g) v (include_lowercase g) (include_numbers g)
     (include_symbols g) (min_length g) (max_length g).
Definition set_include_lowercase (v : bool) (g : t) : t :=
  mk (length g) (include_uppercase g) v (include_numbers g)
     (include_symbols g) (min_length g) (max_length g).
Definition set_include_numbers (v : bool) (g : t) : t :=
  mk (length g) (include_uppercase g) (include_lowercase g) v
     (include_symbols g) (min_length g) (max_length g).
Definition set_include_symbols (v : bool) (g : t) : t :=
  mk (length g) (include_uppercase g) (include_lowercase g)
     (include_numbers g) v (min_length g) (max_length g).

Section Run.
Context {unicode : UnicodeData}.

(** The line that reports the character types in use. *)
Definition character_types (g : t) : str :=
  strip (lit "  Character types: "
         ++ (if include_uppercase g then lit "Uppercase" else lit "")
         ++ lit " "
         ++ (if include_lowercase g then lit "Lowercase" else lit "")
         ++ lit " "
         ++ (if include_numbers g then lit "Numbers" else lit "")
         ++ lit " "
         ++ (if include_symbols g then lit "Symbols" else lit "")).

(** [run]: [parse_args] stands for the call [parser.parse_args(args)] of
    the argument parser the method builds; it returns a namespace or
    leaves through the parser's own error exit. *)
Definition run (parse_args : M Namespace.t) : M unit :=
  try_except
    (args <- parse_args ;;
     if Namespace.help args then display_help
     else
       g <- get_self ;;
       (if negb ((min_length g <=? Namespace.length args)
                 && (Namespace.length args <=? max_length g))
        then
          print (lit "Error: Password length must be between "
                 ++ str_of_int (min_length g) ++ lit " and "
                 ++ str_of_int (max_length g)) ;;
          sys_exit 1
        else ret tt) ;;
       set_self (set_length (Namespace.length args)) ;;
       set_self (set_include_uppercase (Namespace.include_uppercase args)) ;;
       set_self (set_include_lowercase (Namespace.include_lowercase args)) ;;
       set_self (set_include_numbers (Namespace.include_numbers args)) ;;
       set_self (set_include_symbols (Namespace.include_symbols args)) ;;
       password <- generate_password ;;
       strength <- assess_strength password ;;
       print (NL ++ ESC ++ lit "[1mGenerated Password:" ++ ESC ++ lit "[0m") ;;
       print (ESC ++ lit "[36m" ++ password ++ ESC ++ lit "[0m") ;;
       print_strength_meter strength ;;
       print (NL ++ lit "Settings used:") ;;
       g <- get_self ;;
       print (lit "  Length: " ++ str_of_int (length g)) ;;
       print (character_types g) ;;
       print (NL ++ lit "Tip: For maximum security, use passwords with at least 12 characters including all character types."))
    (fun e =>
       print (NL ++ lit "Error: " ++ str_of_exn e) ;;
       display_help ;;
       sys_exit 1).

(** The program: a fresh generator runs once on the command line. *)
Definition main (parse_args : M Namespace.t) (pool : entropy)
  : outcome unit * world :=
  run parse_args {| self := __init__; urandom := pool; stdout := [] |}.

End Run.

(** The exit status of the process: 0 when the program runs to its end,
    the argument of [sys.exit] when [SystemExit] leaves it, 1 when another
    exception does. *)
Definition exit_status {A} (o : outcome A) : Z :=
  match o with
  | Return _ => 0
  | Raise (SystemExit code) => code
  | Raise _ => 1
  end.

End PasswordGenerator.

(** * The vocabulary of the properties *)

Import Py.
Module PG := PasswordGenerator.
Import PasswordGenerator(world, mkWorld, self, urandom, stdout, entropy,
  mkEntropy, tape, cursor, outcome, Return, Raise, M, ret, bind, raise,
  try_except, get_self, set_self, print, sys_exit, range, for_each,
  randbelow, choice, getitem, PasswordStrength_of, no_charset_message,
  generate_password, assess_strength, colors, strength_text, meter_of,
  print_strength_meter, display_help, run, main, exit_status).

(** The pool [generate_password] builds for a configuration. *)
Definition charset_of (g : PG.t) : str :=
  (if PG.include_uppercase g then PyString.ascii_uppercase else [])
  ++ (if PG.include_lowercase g then PyString.ascii_lowercase else [])
  ++ (if PG.include_numbers g then PyString.digits else [])
  ++ (if PG.include_symbols g then PyString.punctuation else []).

(** Some category is switched on. *)
Definition some_category (g : PG.t) : Prop :=
  PG.include_uppercase g = true \/ PG.include_lowercase g = true
  \/ PG.include_numbers g = true \/ PG.include_symbols g = true.

(** No category is switched on. *)
Definition no_category (g : PG.t) : Prop :=
  PG.include_uppercase g = false /\ PG.include_lowercase g = false
  /\ PG.include_numbers g = false /\ PG.include_symbols g = false.

(** The union of the character sets of the categories switched on. *)
Definition in_enabled_sets (g : PG.t) (c : codepoint) : Prop :=
  (PG.include_uppercase g = true /\ In c PyString.ascii_uppercase)
  \/ (PG.include_lowercase g = true /\ In c PyString.ascii_lowercase)
  \/ (PG.include_numbers g = true /\ In c PyString.digits)
  \/ (PG.include_symbols g = true /\ In c PyString.punctuation).

(** The world after [n] more draws from the entropy pool. *)
Definition drawn (n : nat) (w : world) : world :=
  {| self := self w;
     urandom := {| tape := tape (urandom w);
                   cursor := (n + cursor (urandom w))%nat |};
     stdout := stdout w |}.

(** A pick is one character of the sequence. *)
Definition pick_of (seq : str) (p : str) : Prop := exists c, p = [c] /\ In c seq.

(** A Unicode database cut down to the ASCII range: no code point from 128
    on is in a class.  On ASCII strings it classifies as any database
    does, so it serves to run the program on ASCII inputs. *)
Definition ascii_table : UnicodeData :=
  {| isupper c := ((65 <=? c) && (c <=? 90))%N;
     islower c := ((97 <=? c) && (c <=? 122))%N;
     isdigit c := ((48 <=? c) && (c <=? 57))%N;
     isupper_ascii := fun _ _ => eq_refl;
     islower_ascii := fun _ _ => eq_refl;
     isdigit_ascii := fun _ _ => eq_refl |}.

(** The number of points [assess_strength] has collected before it clamps. *)
Definition raw_score {unicode : UnicodeData} (password : str) : Z :=
  (if len password >=? 12 then 1 else 0)
  + (if len password >=? 16 then 1 else 0)
  + (if any isupper password then 1 else 0)
  + (if any islower password then 1 else 0)
  + (if any isdigit password then 1 else 0)
  + (if any (contains PyString.punctuation) password then 1 else 0).

(** The scoring rule in the words of the specification.  A test that holds
    is worth one point, a test that fails none. *)
Definition point (test : Prop) (n : Z) : Prop :=
  (test /\ n = 1) \/ (~ test /\ n = 0).

(** The password holds a character of the class. *)
Definition holds (class : codepoint -> Prop) (password : str) : Prop :=
  exists c, In c password /\ class c.

(** Six independent tests, summed, the sum clamped at 4, the result read
    on the scale from [VERY_WEAK] = 0 to [VERY_STRONG] = 4. *)
Definition scored {unicode : UnicodeData} (password : str)
  (level : PasswordStrength) : Prop :=
  exists n12 n16 nu nl nd ns,
    point (len password >= 12) n12
    /\ point (len password >= 16) n16
    /\ point (holds (fun c => isupper c = true) password) nu
    /\ point (holds (fun c => islower c = true) password) nl
    /\ point (holds (fun c => isdigit c = true) password) nd
    /\ point (holds (fun c => In c PyString.punctuation) password) ns
    /\ value level = Z.min (n12 + n16 + nu + nl + nd + ns) 4.

(** The world after [text] went to standard output. *)
Definition wrote (text : str) (w : world) : world :=
  {| self := self w; urandom := urandom w; stdout := stdout w ++ text |}.

(** The world with another configuration in [self]. *)
Definition with_self (g : PG.t) (w : world) : world :=
  {| self := g; urandom := urandom w; stdout := stdout w |}.

(** The label and the colour [print_strength_meter] looks up for a level. *)
Definition label_of (level : PasswordStrength) : str :=
  match level with
  | VERY_WEAK => lit "Very Weak"
  | WEAK => lit "Weak"
  | MEDIUM => lit "Medium"
  | STRONG => lit "Strong"
  | VERY_STRONG => lit "Very Strong"
  end.

Definition color_of (level : PasswordStrength) : str :=
  match level with
  | VERY_WEAK => ESC ++ lit "[91m"
  | WEAK => ESC ++ lit "[93m"
  | MEDIUM => ESC ++ lit "[33m"
  | STRONG | VERY_STRONG => ESC ++ lit "[92m"
  end.

(** The two lines [print_strength_meter] writes. *)
Definition meter_lines (level : PasswordStrength) : str :=
  (NL ++ lit "Password Strength:") ++ NL
  ++ (color_of level ++ meter_of level ++ lit " " ++ label_of level
      ++ ESC ++ lit "[0m") ++ NL.

(** What [display_help] writes. *)
Definition help_text : str :=
  stdout (snd (display_help (mkWorld PG.__init__ (mkEntropy (fun _ => O) O) []))).

(** The line that rejects a length. *)
Definition length_error (g : PG.t) : str :=
  lit "Error: Password length must be between "
  ++ str_of_int (PG.min_length g) ++ lit " and "
  ++ str_of_int (PG.max_length g).

(** The configuration after [run] has copied the namespace into [self]. *)
Definition configured (args : Namespace.t) (g : PG.t) : PG.t :=
  PG.mk (Namespace.length args)
        (Namespace.include_uppercase args) (Namespace.include_lowercase args)
        (Namespace.include_numbers args) (Namespace.include_symbols args)
        (PG.min_length g) (PG.max_length g).

(** The command line leaves some category switched on. *)
Definition requests_category (args : Namespace.t) : Prop :=
  Namespace.include_uppercase args = true
  \/ Namespace.include_lowercase args = true
  \/ Namespace.include_numbers args = true
  \/ Namespace.include_symbols args = true.

(** What a successful [run] writes after the password line. *)
Definition settings_lines (g : PG.t) : str :=
  (NL ++ lit "Settings used:") ++ NL
  ++ (lit "  Length: " ++ str_of_int (PG.length g)) ++ NL
  ++ PG.character_types g ++ NL
  ++ (NL ++ lit "Tip: For maximum security, use passwords with at least 12 characters including all character types.") ++ NL.

(** Everything a successful [run] writes. *)
Definition report (g : PG.t) (password : str) (level : PasswordStrength) : str :=
  (NL ++ ESC ++ lit "[1mGenerated Password:" ++ ESC ++ lit "[0m") ++ NL
  ++ (ESC ++ lit "[36m" ++ password ++ ESC ++ lit "[0m") ++ NL
  ++ meter_lines level
  ++ settings_lines g.

(** ** Concrete inputs *)

(** An entropy pool to run the program on. *)
Definition pool0 : entropy := mkEntropy (fun n => (n * 37 + 11)%nat) 0.

(** A fresh generator before anything was printed. *)
Definition world0 : world := mkWorld PG.__init__ pool0 [].

(** The same with every category switched off. *)
Definition world_off : world :=
  mkWorld (PG.mk 12 false false false false 6 32) pool0 [].

(** Command lines: [-l 5], [-l 5 -h], [-l 32], and [-l 6] with the four
    [--no-...] flags. *)
Definition args_5 : Namespace.t := Namespace.mk 5 true true true true false.
Definition args_5_help : Namespace.t := Namespace.mk 5 true true true true true.
Definition args_32 : Namespace.t := Namespace.mk 32 true true true true false.
Definition args_6_none : Namespace.t :=
  Namespace.mk 6 false false false false false.

(** Two lowercase passwords of 20 and of 10 characters. *)
Definition lower20 : str := lit "abcdefghijabcdefghij".
Definition lower10 : str := lit "abcdefghij".

(** ** Vocabulary of the further properties *)

(** The points [assess_strength] gives for a length. *)
Definition length_points (n : Z) : Z :=
  (if n >=? 12 then 1 else 0) + (if n >=? 16 then 1 else 0).

(** The number of categories switched on. *)
Definition enabled_count (g : PG.t) : Z :=
  (if PG.include_uppercase g then 1 else 0)
  + (if PG.include_lowercase g then 1 else 0)
  + (if PG.include_numbers g then 1 else 0)
  + (if PG.include_symbols g then 1 else 0).

(** The number of characters the enabled categories bring to the pool. *)
Definition pool_size (g : PG.t) : Z :=
  (if PG.include_uppercase g then 26 else 0)
  + (if PG.include_lowercase g then 26 else 0)
  + (if PG.include_numbers g then 10 else 0)
  + (if PG.include_symbols g then 32 else 0).

(** No character occurs twice. *)
Fixpoint distinct (s : str) : bool :=
  match s with
  | [] => true
  | c :: s' => negb (contains s' c) && distinct s'
  end.

(** The character [generate_password] puts at position [i]: the entropy
    pool's draw number [cursor + i], reduced to an index of the pool. *)
Definition drawn_char (pool : entropy) (charset : str) (i : nat) : codepoint :=
  nth (tape pool (cursor pool + i) mod List.length charset)%nat charset 0%N.

(** The four tests of [assess_strength] on one character, with the ASCII
    table. *)
Definition ascii_classes (c : codepoint) : bool * bool * bool * bool :=
  (@isupper ascii_table c, @islower ascii_table c, @isdigit ascii_table c,
   contains PyString.punctuation c).

Definition classes_eqb (x y : bool * bool * bool * bool) : bool :=
  let '(a1, b1, c1, d1) := x in
  let '(a2, b2, c2, d2) := y in
  Bool.eqb a1 a2 && Bool.eqb b1 b2 && Bool.eqb c1 c2 && Bool.eqb d1 d2.

(** Every character of [set] is ASCII and falls in the classes [k]. *)
Definition set_in_classes (set : str) (k : bool * bool * bool * bool) : bool :=
  forallb (fun c => (c <? 128)%N && classes_eqb (ascii_classes c) k) set.

(** More concrete inputs: a generator asked for no character, [-h] alone,
    [-l 12] with only digits, and a short password with the four classes. *)
Definition world_length_0 : world :=
  mkWorld (PG.mk 0 true true true true 6 32) pool0 [].
Definition args_help : Namespace.t := Namespace.mk 12 true true true true true.
Definition args_digits : Namespace.t :=
  Namespace.mk 12 false false true false false.
Definition short_mixed : str := lit "aB1!".

(** * Properties *)

(** ** Strings *)

Lemma join_empty_sep (parts : list str) : join [] parts = List.concat parts.
Proof.
  induction parts as [|p ps IH]; [reflexivity|].
  destruct ps as [|q qs].
  - simpl. now rewrite app_nil_r.
  - change (join [] (p :: q :: qs)) with (p ++ [] ++ join [] (q :: qs)).
    rewrite IH. reflexivity.
Qed.

(** [any] finds a character exactly when the string holds one. *)
Lemma any_true_iff {A} (f : A -> bool) (s : list A) :
  any f s = true <-> exists c, In c s /\ f c = true.
Proof.
  induction s as [|a s IH]; simpl.
  - split; [discriminate | intros (c & [] & _)].
  - destruct (f a) eqn:Ha.
    + split; [intros _; exists a; auto | reflexivity].
    + rewrite IH. split.
      * intros (c & Hin & Hc). exists c. auto.
      * intros (c & [<- | Hin] & Hc); [congruence | exists c; auto].
Qed.

Lemma any_ext_in {A} (f g : A -> bool) (s : list A) :
  (forall c, In c s -> f c = g c) -> any f s = any g s.
Proof.
  induction s as [|a s IH]; intros H; simpl; [reflexivity|].
  rewrite (H a (or_introl eq_refl)), IH; [reflexivity|].
  intros c Hc. apply H. now right.
Qed.

Lemma contains_In (s : str) (c : codepoint) : contains s c = true <-> In c s.
Proof.
  unfold contains. rewrite any_true_iff. split.
  - intros (d & Hin & Heq). apply N.eqb_eq in Heq. now subst.
  - intros Hin. exists c. split; [assumption | apply N.eqb_refl].
Qed.

(** ** The character pool *)

Lemma In_if_enabled (flag : bool) (set : str) (c : codepoint) :
  In c (if flag then set else []) <-> flag = true /\ In c set.
Proof. destruct flag; simpl; intuition congruence. Qed.

Lemma charset_of_enabled (g : PG.t) (c : codepoint) :
  In c (charset_of g) <-> in_enabled_sets g c.
Proof.
  unfold charset_of, in_enabled_sets.
  rewrite !in_app_iff, !In_if_enabled. tauto.
Qed.

Lemma charset_of_truthy (g : PG.t) :
  some_category g -> truthy (charset_of g) = true.
Proof.
  unfold some_category, charset_of.
  destruct (PG.include_uppercase g), (PG.include_lowercase g),
    (PG.include_numbers g), (PG.include_symbols g);
    try reflexivity; intuition discriminate.
Qed.

Lemma charset_of_empty (g : PG.t) : no_category g -> charset_of g = [].
Proof.
  unfold no_category, charset_of. intros (Hu & Hl & Hn & Hs).
  now rewrite Hu, Hl, Hn, Hs.
Qed.

(** ** The generator *)

Lemma drawn_0 (w : world) : drawn 0 w = w.
Proof. destruct w as [g [t c] o]. reflexivity. Qed.

Lemma drawn_S (n : nat) (w : world) : drawn n (drawn 1 w) = drawn (S n) w.
Proof. unfold drawn. simpl. do 2 f_equal. lia. Qed.

Lemma choice_pick (seq : str) (w : world) :
  truthy seq = true ->
  exists p, choice seq w = (Return p, drawn 1 w) /\ pick_of seq p.
Proof.
  intros Hne. unfold choice. rewrite Hne. simpl.
  eexists. split; [reflexivity|].
  eexists. split; [reflexivity|].
  apply nth_In. apply Nat.mod_upper_bound.
  destruct seq; [discriminate | simpl; lia].
Qed.

Lemma for_each_choice {A} (seq : str) (xs : list A) :
  truthy seq = true ->
  forall w, exists picks,
    for_each xs (fun _ => choice seq) w = (Return picks, drawn (List.length xs) w)
    /\ List.length picks = List.length xs
    /\ Forall (pick_of seq) picks.
Proof.
  intros Hne. induction xs as [|x xs IH]; intros w.
  - exists []. rewrite drawn_0. repeat split. constructor.
  - destruct (choice_pick seq w Hne) as (p & Hp & Hpick).
    destruct (IH (drawn 1 w)) as (ps & Hps & Hlen & Hall).
    exists (p :: ps). simpl. unfold bind at 1. rewrite Hp.
    unfold bind at 1. rewrite Hps. unfold ret. rewrite drawn_S.
    repeat split; [simpl; congruence | now constructor].
Qed.

Lemma concat_picks (seq : str) (picks : list str) :
  Forall (pick_of seq) picks ->
  List.length (List.concat picks) = List.length picks
  /\ Forall (fun c => In c seq) (List.concat picks).
Proof.
  induction 1 as [|p ps (c & -> & Hc) _ [IHlen IHall]]; simpl.
  - split; [reflexivity | constructor].
  - split; [congruence | now constructor].
Qed.

Lemma length_range (n : Z) : List.length (range n) = Z.to_nat n.
Proof. unfold range. now rewrite length_map, length_seq. Qed.

(** [generate_password] either refuses an empty pool or draws one character
    of the pool for each position. *)
Lemma generate_password_unfold (w : world) :
  generate_password w =
  let charset := charset_of (self w) in
  if negb (truthy charset) then (Raise (ValueError no_charset_message), w)
  else bind (for_each (range (PG.length (self w))) (fun _ => choice charset))
            (fun picks => ret (join (lit "") picks)) w.
Proof.
  unfold generate_password, charset_of.
  unfold bind at 1. unfold get_self.
  destruct (PG.include_uppercase (self w)), (PG.include_lowercase (self w)),
    (PG.include_numbers (self w)), (PG.include_symbols (self w));
    reflexivity.
Qed.

Lemma generate_password_returns (w : world) :
  some_category (self w) ->
  exists password,
    generate_password w
    = (Return password, drawn (Z.to_nat (PG.length (self w))) w)
    /\ len password = Z.max 0 (PG.length (self w))
    /\ Forall (fun c => In c (charset_of (self w))) password.
Proof.
  intros Hcat. rewrite generate_password_unfold. cbv zeta.
  pose proof (charset_of_truthy _ Hcat) as Hne. rewrite Hne. simpl negb.
  destruct (for_each_choice (charset_of (self w))
              (range (PG.length (self w))) Hne w) as (picks & Hrun & Hlen & Hall).
  rewrite length_range in Hrun, Hlen.
  destruct (concat_picks _ _ Hall) as [Hclen Hcall].
  exists (List.concat picks). unfold bind. rewrite Hrun. unfold ret.
  change (lit "") with (@nil codepoint). rewrite join_empty_sep.
  repeat split; [|assumption].
  unfold len. rewrite Hclen, Hlen. lia.
Qed.

Lemma generate_password_raises (w : world) :
  no_category (self w) ->
  generate_password w = (Raise (ValueError no_charset_message), w).
Proof.
  intros Hnone. rewrite generate_password_unfold. cbv zeta.
  now rewrite (charset_of_empty _ Hnone).
Qed.

(** ** The assessor *)

Lemma value_inj (l1 l2 : PasswordStrength) : value l1 = value l2 -> l1 = l2.
Proof. destruct l1, l2; simpl; intros H; congruence || discriminate H. Qed.

Lemma value_range (l : PasswordStrength) : 0 <= value l <= 4.
Proof. destruct l; simpl; lia. Qed.

(** The enumeration has a member for each value from 0 to 4, and the call
    touches nothing. *)
Lemma PasswordStrength_of_member (v : Z) (w : world) :
  0 <= v <= 4 ->
  exists level, PasswordStrength_of v w = (Return level, w) /\ value level = v.
Proof.
  intros Hv.
  assert (v = 0 \/ v = 1 \/ v = 2 \/ v = 3 \/ v = 4) as Hcases by lia.
  destruct Hcases as [-> | [-> | [-> | [-> | ->]]]];
    eexists; (split; [reflexivity | reflexivity]).
Qed.

Section AssessorFacts.
Context {unicode : UnicodeData}.

Lemma assess_strength_unfold (password : str) :
  assess_strength password
  = PasswordStrength_of (Z.min (raw_score password) 4).
Proof.
  unfold assess_strength, raw_score.
  destruct (len password >=? 12), (len password >=? 16),
    (any isupper password), (any islower password),
    (any isdigit password), (any (contains PyString.punctuation) password);
    reflexivity.
Qed.

Lemma raw_score_range (password : str) : 0 <= raw_score password <= 6.
Proof.
  unfold raw_score.
  destruct (len password >=? 12), (len password >=? 16),
    (any isupper password), (any islower password),
    (any isdigit password), (any (contains PyString.punctuation) password);
    lia.
Qed.

(** [assess_strength] returns the member whose value is the clamped
    score, whatever the world, and leaves the world as it was. *)
Lemma assess_strength_returns (password : str) :
  exists level,
    value level = Z.min (raw_score password) 4
    /\ forall w, assess_strength password w = (Return level, w).
Proof.
  pose proof (raw_score_range password) as Hr.
  assert (0 <= Z.min (raw_score password) 4 <= 4) as Hv by lia.
  pose (w0 := mkWorld PG.__init__ (mkEntropy (fun _ => O) O) []).
  destruct (PasswordStrength_of_member _ w0 Hv) as (level & _ & Hval).
  exists level. split; [assumption|]. intros w.
  rewrite assess_strength_unfold.
  destruct (PasswordStrength_of_member _ w Hv) as (level' & Hrun & Hval').
  rewrite Hrun. f_equal. f_equal. apply value_inj. congruence.
Qed.

Lemma point_of_bool (b : bool) (test : Prop) (n : Z) :
  (b = true <-> test) -> point test n <-> n = (if b then 1 else 0).
Proof.
  unfold point. intros Hb. destruct b.
  - intuition congruence.
  - split.
    + intros [[Ht _] | [_ Hn]]; [apply Hb in Ht; discriminate | assumption].
    + intros ->. right. split; [|reflexivity].
      intros Ht. apply Hb in Ht. discriminate.
Qed.

Lemma any_holds (f : codepoint -> bool) (password : str) :
  any f password = true <-> holds (fun c => f c = true) password.
Proof. apply any_true_iff. Qed.

Lemma any_punctuation_holds (password : str) :
  any (contains PyString.punctuation) password = true
  <-> holds (fun c => In c PyString.punctuation) password.
Proof.
  rewrite any_true_iff. unfold holds.
  split; intros (c & Hin & Hc); exists c; (split; [assumption|]);
    now apply contains_In.
Qed.

(** The specification's rule picks the level with the clamped score. *)
Lemma scored_iff (password : str) (level : PasswordStrength) :
  scored password level <-> value level = Z.min (raw_score password) 4.
Proof.
  unfold scored, raw_score.
  pose proof (point_of_bool (len password >=? 12) (len password >= 12)) as H12.
  pose proof (point_of_bool (len password >=? 16) (len password >= 16)) as H16.
  pose proof (fun n => point_of_bool _ _ n (any_holds isupper password)) as Hu.
  pose proof (fun n => point_of_bool _ _ n (any_holds islower password)) as Hl.
  pose proof (fun n => point_of_bool _ _ n (any_holds isdigit password)) as Hd.
  pose proof (fun n => point_of_bool _ _ n (any_punctuation_holds password)) as Hs.
  assert (forall n, point (len password >= 12) n
                    <-> n = if len password >=? 12 then 1 else 0) as H12'.
  { intros n. apply H12. rewrite Z.geb_le. lia. }
  assert (forall n, point (len password >= 16) n
                    <-> n = if len password >=? 16 then 1 else 0) as H16'.
  { intros n. apply H16. rewrite Z.geb_le. lia. }
  split.
  - intros (n12 & n16 & nu & nl & nd & ns & P12 & P16 & Pu & Pl & Pd & Ps & Hv).
    apply H12' in P12. apply H16' in P16. apply Hu in Pu. apply Hl in Pl.
    apply Hd in Pd. apply Hs in Ps. now subst.
  - intros Hv. do 6 eexists.
    repeat split; [apply H12' | apply H16' | apply Hu | apply Hl | apply Hd
                  | apply Hs | ]; try reflexivity.
    exact Hv.
Qed.

End AssessorFacts.

(** ** Printing *)

Lemma wrote_wrote (t1 t2 : str) (w : world) :
  wrote t2 (wrote t1 w) = wrote (t1 ++ t2) w.
Proof. unfold wrote. simpl. now rewrite <- app_assoc. Qed.

Lemma print_wrote (s : str) (w : world) :
  print s w = (Return tt, wrote (s ++ NL) w).
Proof. reflexivity. Qed.

Lemma bind_print {B} (s : str) (k : unit -> M B) (w : world) :
  bind (print s) k w = k tt (wrote (s ++ NL) w).
Proof. reflexivity. Qed.

Lemma bind_returns {A B} (m : M A) (k : A -> M B) (w w' : world) (a : A) :
  m w = (Return a, w') -> bind m k w = k a w'.
Proof. intros H. unfold bind. now rewrite H. Qed.

Lemma bind_raises {A B} (m : M A) (k : A -> M B) (w w' : world) (e : exn) :
  m w = (Raise e, w') -> bind m k w = (Raise e, w').
Proof. intros H. unfold bind. now rewrite H. Qed.

Lemma print_strength_meter_wrote (level : PasswordStrength) (w : world) :
  print_strength_meter level w = (Return tt, wrote (meter_lines level) w).
Proof.
  unfold print_strength_meter. rewrite bind_print.
  destruct level; cbn [value];
    (erewrite bind_returns by reflexivity);
    (erewrite bind_returns by reflexivity);
    rewrite print_wrote, wrote_wrote; reflexivity.
Qed.

Lemma display_help_wrote (w : world) :
  display_help w = (Return tt, wrote help_text w).
Proof.
  unfold display_help.
  repeat rewrite bind_print. rewrite print_wrote.
  repeat rewrite wrote_wrote.
  reflexivity.
Qed.

(** ** The command line *)

Lemma in_bounds_test (lo hi n : Z) :
  negb ((lo <=? n) && (n <=? hi)) = false <-> lo <= n <= hi.
Proof.
  rewrite negb_false_iff, andb_true_iff, !Z.leb_le. tauto.
Qed.

Lemma configured_some_category (args : Namespace.t) (g : PG.t) :
  requests_category args -> some_category (configured args g).
Proof. intros H. exact H. Qed.

Section RunFacts.
Context {unicode : UnicodeData}.

(** With [--help] the run shows the help and nothing else happens. *)
Lemma run_help (args : Namespace.t) (w : world) :
  Namespace.help args = true ->
  run (ret args) w = (Return tt, wrote help_text w).
Proof.
  intros Hhelp. unfold run, try_except.
  rewrite (bind_returns (ret args) _ w w args eq_refl).
  rewrite Hhelp, display_help_wrote. reflexivity.
Qed.

(** A length out of bounds stops the run at the test: one line is written,
    [self] and the entropy pool are as before. *)
Lemma run_rejects (args : Namespace.t) (w : world) :
  Namespace.help args = false ->
  ~ (PG.min_length (self w) <= Namespace.length args <= PG.max_length (self w)) ->
  run (ret args) w
  = (Raise (SystemExit 1), wrote (length_error (self w) ++ NL) w).
Proof.
  intros Hhelp Hout. unfold run, try_except.
  rewrite (bind_returns (ret args) _ w w args eq_refl).
  rewrite Hhelp.
  rewrite (bind_returns get_self _ w w (self w) eq_refl).
  destruct (negb ((PG.min_length (self w) <=? Namespace.length args)
                  && (Namespace.length args <=? PG.max_length (self w)))) eqn:Htest.
  - reflexivity.
  - apply in_bounds_test in Htest. contradiction.
Qed.

Lemma run_configures (args : Namespace.t) (w : world) (k : unit -> M unit) :
  bind (set_self (PG.set_length (Namespace.length args))) (fun _ =>
  bind (set_self (PG.set_include_uppercase (Namespace.include_uppercase args))) (fun _ =>
  bind (set_self (PG.set_include_lowercase (Namespace.include_lowercase args))) (fun _ =>
  bind (set_self (PG.set_include_numbers (Namespace.include_numbers args))) (fun _ =>
  bind (set_self (PG.set_include_symbols (Namespace.include_symbols args))) k)))) w
  = k tt (with_self (configured args (self w)) w).
Proof. reflexivity. Qed.

(** A length within bounds is copied into [self] with the flags, and with
    some category switched on the run generates, assesses and reports. *)
Lemma run_generates (args : Namespace.t) (w : world) :
  Namespace.help args = false ->
  PG.min_length (self w) <= Namespace.length args <= PG.max_length (self w) ->
  requests_category args ->
  let g := configured args (self w) in
  exists password level,
    run (ret args) w
    = (Return tt,
       wrote (report g password level)
         (drawn (Z.to_nat (Namespace.length args)) (with_self g w)))
    /\ generate_password (with_self g w)
       = (Return password,
          drawn (Z.to_nat (Namespace.length args)) (with_self g w))
    /\ (forall w', assess_strength password w' = (Return level, w'))
    /\ len password = Z.max 0 (Namespace.length args)
    /\ Forall (in_enabled_sets g) password.
Proof.
  intros Hhelp Hin Hcat g.
  destruct (generate_password_returns (with_self g w)
              (configured_some_category args (self w) Hcat))
    as (password & Hgen & Hlen & Hall).
  destruct (assess_strength_returns password) as (level & _ & Hassess).
  exists password, level.
  split; [|split; [exact Hgen | split; [exact Hassess | split; [exact Hlen|]]]].
  2:{ eapply Forall_impl; [|exact Hall]. intros c. apply charset_of_enabled. }
  unfold run, try_except.
  rewrite (bind_returns (ret args) _ w w args eq_refl).
  rewrite Hhelp.
  rewrite (bind_returns get_self _ w w (self w) eq_refl).
  apply in_bounds_test in Hin. rewrite Hin.
  rewrite (bind_returns (ret tt) _ w w tt eq_refl).
  rewrite run_configures. fold g.
  rewrite (bind_returns _ _ _ _ _ Hgen).
  rewrite (bind_returns _ _ _ _ _ (Hassess _)).
  rewrite !bind_print.
  rewrite (bind_returns _ _ _ _ _ (print_strength_meter_wrote level _)).
  rewrite bind_print.
  erewrite (bind_returns get_self) by reflexivity.
  rewrite bind_print, bind_print, print_wrote.
  rewrite !wrote_wrote.
  cbn [self wrote drawn with_self].
  unfold report, settings_lines.
  rewrite <- !app_assoc. reflexivity.
Qed.

(** A length within bounds with every category switched off: the generator
    raises, the handler reports the error, shows the help and exits. *)
Lemma run_no_category (args : Namespace.t) (w : world) :
  Namespace.help args = false ->
  PG.min_length (self w) <= Namespace.length args <= PG.max_length (self w) ->
  no_category (configured args (self w)) ->
  run (ret args) w
  = (Raise (SystemExit 1),
     wrote ((NL ++ lit "Error: " ++ no_charset_message) ++ NL ++ help_text)
       (with_self (configured args (self w)) w)).
Proof.
  intros Hhelp Hin Hnone.
  pose proof (generate_password_raises (with_self (configured args (self w)) w) Hnone)
    as Hgen.
  unfold run, try_except.
  rewrite (bind_returns (ret args) _ w w args eq_refl).
  rewrite Hhelp.
  rewrite (bind_returns get_self _ w w (self w) eq_refl).
  apply in_bounds_test in Hin. rewrite Hin.
  rewrite (bind_returns (ret tt) _ w w tt eq_refl).
  rewrite run_configures.
  rewrite (bind_raises _ _ _ _ _ Hgen).
  cbn [is_Exception str_of_exn].
  rewrite bind_print.
  rewrite (bind_returns _ _ _ _ _ (display_help_wrote _)).
  rewrite wrote_wrote. rewrite <- !app_assoc. reflexivity.
Qed.

End RunFacts.

(** * The claims *)

Lemma category_cases (g : PG.t) : some_category g \/ no_category g.
Proof.
  unfold some_category, no_category.
  destruct (PG.include_uppercase g), (PG.include_lowercase g),
    (PG.include_numbers g), (PG.include_symbols g); auto 10.
Qed.

Lemma world0_some_category : some_category (self world0).
Proof. left. reflexivity. Defined.

(** C1.  For every configuration whose length lies in [6, 32] and that has
    some category switched on, [generate_password] returns a string, and
    the length of that string is the configured length. *)
Theorem generate_password_length (w : world) :
  6 <= PG.length (self w) <= 32 ->
  some_category (self w) ->
  exists password w',
    generate_password w = (Return password, w')
    /\ len password = PG.length (self w).
Proof.
  intros Hlen Hcat.
  destruct (generate_password_returns w Hcat) as (password & Hrun & Hl & _).
  exists password. eexists. split; [exact Hrun | lia].
Qed.

Lemma generate_password_length_witness :
  6 <= PG.length (self world0) <= 32
  /\ some_category (self world0)
  /\ exists password w',
       generate_password world0 = (Return password, w')
       /\ len password = PG.length (self world0).
Proof.
  split; [simpl; lia|]. split; [exact world0_some_category|].
  apply (generate_password_length world0); [simpl; lia|].
  exact world0_some_category.
Defined.

(** C2.  For every configuration that has some category switched on,
    [generate_password] returns a string, and each character of it belongs
    to the union of the character sets of the categories switched on. *)
Theorem generate_password_charset (w : world) :
  some_category (self w) ->
  exists password w',
    generate_password w = (Return password, w')
    /\ Forall (in_enabled_sets (self w)) password.
Proof.
  intros Hcat.
  destruct (generate_password_returns w Hcat) as (password & Hrun & _ & Hall).
  exists password. eexists. split; [exact Hrun|].
  eapply Forall_impl; [|exact Hall].
  intros c. apply charset_of_enabled.
Qed.

Lemma generate_password_charset_witness :
  some_category (self world0)
  /\ exists password w',
       generate_password world0 = (Return password, w')
       /\ Forall (in_enabled_sets (self world0)) password.
Proof.
  split; [exact world0_some_category|].
  apply (generate_password_charset world0). exact world0_some_category.
Defined.

(** C3.  For every configuration with the four categories switched off,
    [generate_password] raises the error of a configuration without a
    character type (the specification's ConfigurationError, a [ValueError]
    in the source) and returns no password; the world is left as it was. *)
Theorem generate_password_no_category (w : world) :
  no_category (self w) ->
  generate_password w = (Raise (ValueError no_charset_message), w)
  /\ forall password w', generate_password w <> (Return password, w').
Proof.
  intros Hnone. rewrite (generate_password_raises w Hnone).
  split; [reflexivity | discriminate].
Qed.

Lemma generate_password_no_category_witness :
  no_category (self world_off)
  /\ generate_password world_off
     = (Raise (ValueError no_charset_message), world_off)
  /\ forall password w', generate_password world_off <> (Return password, w').
Proof.
  assert (no_category (self world_off)) as Hnone
    by (repeat split; reflexivity).
  split; [exact Hnone|].
  apply (generate_password_no_category world_off). exact Hnone.
Defined.

Section AssessorClaims.
Context {unicode : UnicodeData}.

(** C4.  For every string, [assess_strength] returns the level that the
    specification's rule gives: one point for each of the six tests that
    holds, the sum clamped at 4 and read on the scale from 0 to 4; the rule
    gives no other level. *)
Theorem assess_strength_scored (password : str) (w : world) :
  exists level,
    assess_strength password w = (Return level, w)
    /\ scored password level
    /\ forall level', scored password level' -> level' = level.
Proof.
  destruct (assess_strength_returns password) as (level & Hval & Hrun).
  exists level. split; [apply Hrun|]. split.
  - now apply scored_iff.
  - intros level' Hs. apply scored_iff in Hs. apply value_inj. congruence.
Qed.

(** C5.  For two strings with the same category presence, the longer one
    is assessed at least as strong as the shorter one. *)
Theorem assess_strength_monotone (p q : str) (w : world) :
  any isupper p = any isupper q ->
  any islower p = any islower q ->
  any isdigit p = any isdigit q ->
  any (contains PyString.punctuation) p = any (contains PyString.punctuation) q ->
  len p >= len q ->
  exists level_p level_q,
    assess_strength p w = (Return level_p, w)
    /\ assess_strength q w = (Return level_q, w)
    /\ value level_p >= value level_q.
Proof.
  intros Hu Hl Hd Hs Hlen.
  destruct (assess_strength_returns p) as (lp & Hvp & Hrp).
  destruct (assess_strength_returns q) as (lq & Hvq & Hrq).
  exists lp, lq. split; [apply Hrp|]. split; [apply Hrq|].
  rewrite Hvp, Hvq. unfold raw_score. rewrite Hu, Hl, Hd, Hs.
  destruct (len p >=? 12) eqn:Hp12, (len p >=? 16) eqn:Hp16,
    (len q >=? 12) eqn:Hq12, (len q >=? 16) eqn:Hq16;
    rewrite ?Z.geb_le, ?Z.geb_leb, ?Z.leb_gt in *;
    destruct (any isupper q), (any islower q), (any isdigit q),
      (any (contains PyString.punctuation) q); lia.
Qed.

(** On a string of ASCII characters every database counts the same points. *)
Lemma raw_score_ascii (password : str) :
  Forall (fun c => (c < 128)%N) password ->
  raw_score password = @raw_score ascii_table password.
Proof.
  intros Hascii. rewrite Forall_forall in Hascii. unfold raw_score.
  rewrite (any_ext_in isupper (@isupper ascii_table) password)
    by (intros c Hc; apply isupper_ascii, Hascii, Hc).
  rewrite (any_ext_in islower (@islower ascii_table) password)
    by (intros c Hc; apply islower_ascii, Hascii, Hc).
  rewrite (any_ext_in isdigit (@isdigit ascii_table) password)
    by (intros c Hc; apply isdigit_ascii, Hascii, Hc).
  reflexivity.
Qed.

(** C6.  [assess_strength] puts "Ab3!Ab3!Ab3!" at level 4, [VERY_STRONG],
    and "abcdefgh" at level 1, [WEAK]. *)
Theorem assess_strength_examples (w : world) :
  assess_strength (lit "Ab3!Ab3!Ab3!") w = (Return VERY_STRONG, w)
  /\ value VERY_STRONG = 4
  /\ assess_strength (lit "abcdefgh") w = (Return WEAK, w)
  /\ value WEAK = 1.
Proof.
  rewrite !assess_strength_unfold.
  rewrite !raw_score_ascii by (repeat constructor).
  repeat split.
Qed.

(** C9.  [assess_strength] returns on every string, the empty one
    included, a member of the enumeration, whose value lies in 0..4; on the
    empty string the member is [VERY_WEAK], level 0. *)
Theorem assess_strength_total (password : str) (w : world) :
  (exists level,
     assess_strength password w = (Return level, w)
     /\ 0 <= value level <= 4)
  /\ assess_strength (lit "") w = (Return VERY_WEAK, w)
  /\ value VERY_WEAK = 0.
Proof.
  split.
  - destruct (assess_strength_returns password) as (level & _ & Hrun).
    exists level. split; [apply Hrun | apply value_range].
  - split; reflexivity.
Qed.

(** C10.  [generate_password] and [assess_strength] leave the fields of
    [self] as they found them, whether they return or raise. *)
Theorem methods_keep_configuration (password : str) (w : world) :
  self (snd (generate_password w)) = self w
  /\ self (snd (assess_strength password w)) = self w.
Proof.
  split.
  - destruct (category_cases (self w)) as [Hcat | Hnone].
    + destruct (generate_password_returns w Hcat) as (pw & Hrun & _).
      rewrite Hrun. reflexivity.
    + rewrite (generate_password_raises w Hnone). reflexivity.
  - destruct (assess_strength_returns password) as (level & _ & Hrun).
    rewrite Hrun. reflexivity.
Qed.

End AssessorClaims.

Lemma assess_strength_monotone_witness :
  any (@isupper ascii_table) lower20 = any (@isupper ascii_table) lower10
  /\ any (@islower ascii_table) lower20 = any (@islower ascii_table) lower10
  /\ any (@isdigit ascii_table) lower20 = any (@isdigit ascii_table) lower10
  /\ any (contains PyString.punctuation) lower20
     = any (contains PyString.punctuation) lower10
  /\ len lower20 >= len lower10
  /\ exists level_p level_q,
       @assess_strength ascii_table lower20 world0 = (Return level_p, world0)
       /\ @assess_strength ascii_table lower10 world0 = (Return level_q, world0)
       /\ value level_p >= value level_q.
Proof.
  repeat (split; [vm_compute; first [reflexivity | discriminate]|]).
  apply (@assess_strength_monotone ascii_table lower20 lower10 world0);
    vm_compute; first [reflexivity | discriminate].
Defined.

(** C8.  For each of the five levels the meter holds five cells between its
    brackets, [value + 1] filled cells followed by [4 - value] empty ones,
    and [print_strength_meter] writes it after a colour escape and before
    the level's label. *)
Theorem strength_meter_cells (level : PasswordStrength) (w : world) :
  exists filled empty color label code,
    meter_of level = lit "[" ++ filled ++ empty ++ lit "]"
    /\ filled = repeat 9608%N (Z.to_nat (value level + 1))
    /\ empty = repeat 32%N (Z.to_nat (4 - value level))
    /\ len filled = value level + 1
    /\ len empty = 4 - value level
    /\ len (filled ++ empty) = 5
    /\ In (value level, color) colors
    /\ color = ESC ++ lit "[" ++ code ++ lit "m"
    /\ In (value level, label) strength_text
    /\ label = label_of level
    /\ print_strength_meter level w
       = (Return tt,
          wrote ((NL ++ lit "Password Strength:") ++ NL
                 ++ (color ++ meter_of level ++ lit " " ++ label
                     ++ ESC ++ lit "[0m") ++ NL) w).
Proof.
  rewrite print_strength_meter_wrote. unfold meter_lines.
  destruct level;
    [ exists (repeat 9608%N 1), (repeat 32%N 4), (ESC ++ lit "[91m"),
        (lit "Very Weak"), (lit "91")
    | exists (repeat 9608%N 2), (repeat 32%N 3), (ESC ++ lit "[93m"),
        (lit "Weak"), (lit "93")
    | exists (repeat 9608%N 3), (repeat 32%N 2), (ESC ++ lit "[33m"),
        (lit "Medium"), (lit "33")
    | exists (repeat 9608%N 4), (repeat 32%N 1), (ESC ++ lit "[92m"),
        (lit "Strong"), (lit "92")
    | exists (repeat 9608%N 5), (repeat 32%N 0), (ESC ++ lit "[92m"),
        (lit "Very Strong"), (lit "92") ];
    repeat (split; [first [reflexivity | simpl; tauto]|]); reflexivity.
Qed.

(** ** The command line: length validation *)

(** C7, as the code has it.  Without [--help], a length outside [6, 32]
    makes the program write the length error and leave with status 1
    before any character is drawn; a length within [6, 32], with some
    category switched on, makes it generate a password of that length
    from the enabled sets, report it and run to its end, status 0. *)
Theorem run_length_validation {unicode : UnicodeData}
  (args : Namespace.t) (pool : entropy) :
  Namespace.help args = false ->
  (~ (6 <= Namespace.length args <= 32) ->
   main (ret args) pool
   = (Raise (SystemExit 1),
      mkWorld PG.__init__ pool
        (lit "Error: Password length must be between 6 and 32" ++ NL))
   /\ exit_status (fst (main (ret args) pool)) = 1)
  /\ (6 <= Namespace.length args <= 32 ->
      requests_category args ->
      exists password level,
        main (ret args) pool
        = (Return tt,
           mkWorld (configured args PG.__init__)
             (mkEntropy (tape pool)
                (Z.to_nat (Namespace.length args) + cursor pool))
             (report (configured args PG.__init__) password level))
        /\ exit_status (fst (main (ret args) pool)) = 0
        /\ len password = Namespace.length args
        /\ Forall (in_enabled_sets (configured args PG.__init__)) password).
Proof.
  intros Hhelp. unfold main. split.
  - intros Hout.
    rewrite (run_rejects args (mkWorld PG.__init__ pool []) Hhelp Hout).
    split; reflexivity.
  - intros Hin Hcat.
    destruct (run_generates args (mkWorld PG.__init__ pool []) Hhelp Hin Hcat)
      as (password & level & Hrun & _ & _ & Hlen & Hall).
    exists password, level. rewrite Hrun.
    repeat split; [lia | exact Hall].
Qed.

Lemma run_length_validation_witness :
  Namespace.help args_5 = false
  /\ Namespace.help args_32 = false
  /\ ~ (6 <= Namespace.length args_5 <= 32)
  /\ exit_status (fst (@main ascii_table (ret args_5) pool0)) = 1
  /\ 6 <= Namespace.length args_32 <= 32
  /\ requests_category args_32
  /\ exists password level,
       @main ascii_table (ret args_32) pool0
       = (Return tt,
          mkWorld (configured args_32 PG.__init__)
            (mkEntropy (tape pool0)
               (Z.to_nat (Namespace.length args_32) + cursor pool0))
            (report (configured args_32 PG.__init__) password level))
       /\ exit_status (fst (@main ascii_table (ret args_32) pool0)) = 0
       /\ len password = Namespace.length args_32
       /\ Forall (in_enabled_sets (configured args_32 PG.__init__)) password.
Proof.
  assert (~ (6 <= Namespace.length args_5 <= 32)) as Hout by (simpl; lia).
  assert (6 <= Namespace.length args_32 <= 32) as Hin by (simpl; lia).
  assert (requests_category args_32) as Hcat by (left; reflexivity).
  split; [reflexivity|]. split; [reflexivity|]. split; [exact Hout|].
  split.
  - apply (@run_length_validation ascii_table args_5 pool0 eq_refl). exact Hout.
  - split; [exact Hin|]. split; [exact Hcat|].
    apply (@run_length_validation ascii_table args_32 pool0 eq_refl);
      assumption.
Defined.

(** C7, as the specification words it, fails twice.  With [-l 5 -h] the
    help is shown and the program ends with status 0: the length is never
    tested.  With [-l 6] and the four [--no-...] flags the length passes
    the test and the program leaves with status 1, for want of a
    character type. *)
Lemma run_length_validation_counterexample :
  Namespace.length args_5_help = 5
  /\ @main ascii_table (ret args_5_help) pool0
     = (Return tt, mkWorld PG.__init__ pool0 help_text)
  /\ exit_status (fst (@main ascii_table (ret args_5_help) pool0)) = 0
  /\ Namespace.length args_6_none = 6
  /\ fst (@main ascii_table (ret args_6_none) pool0) = Raise (SystemExit 1)
  /\ exit_status (fst (@main ascii_table (ret args_6_none) pool0)) = 1.
Proof.
  unfold main.
  rewrite (run_help args_5_help _ eq_refl).
  rewrite (run_no_category args_6_none (mkWorld PG.__init__ pool0 []) eq_refl)
    by (simpl; try lia; repeat split; reflexivity).
  repeat split.
Qed.

(** * Further properties *)

(** ** What the generator draws *)

Lemma concat_singletons {A B} (h : A -> B) (l : list A) :
  List.concat (map (fun i => [h i]) l) = map h l.
Proof. induction l as [|a l IH]; simpl; [reflexivity | now rewrite IH]. Qed.

Lemma choice_drawn_char (charset : str) (w : world) :
  truthy charset = true ->
  choice charset w = (Return [drawn_char (urandom w) charset 0], drawn 1 w).
Proof.
  intros Hne. unfold choice. rewrite Hne. unfold drawn_char.
  rewrite Nat.add_0_r. reflexivity.
Qed.

Lemma for_each_drawn_chars {A} (charset : str) (xs : list A) :
  truthy charset = true ->
  forall w,
    for_each xs (fun _ => choice charset) w
    = (Return (map (fun i => [drawn_char (urandom w) charset i])
                 (seq 0 (List.length xs))),
       drawn (List.length xs) w).
Proof.
  intros Hne. induction xs as [|x xs IH]; intros w.
  - simpl. now rewrite drawn_0.
  - cbn [for_each]. rewrite (bind_returns _ _ _ _ _ (choice_drawn_char _ w Hne)).
    rewrite (bind_returns _ _ _ _ _ (IH (drawn 1 w))).
    unfold ret. rewrite drawn_S. cbn [List.length seq map].
    do 3 f_equal. rewrite <- seq_shift, map_map.
    apply map_ext. intros i. unfold drawn_char, drawn. cbn [urandom tape cursor].
    replace (1 + cursor (urandom w) + i)%nat with (cursor (urandom w) + S i)%nat
      by lia.
    reflexivity.
Qed.

Lemma generate_password_drawn_chars (w : world) :
  some_category (self w) ->
  generate_password w
  = (Return (map (drawn_char (urandom w) (charset_of (self w)))
               (seq 0 (Z.to_nat (PG.length (self w))))),
     drawn (Z.to_nat (PG.length (self w))) w).
Proof.
  intros Hcat. rewrite generate_password_unfold. cbv zeta.
  pose proof (charset_of_truthy _ Hcat) as Hne. rewrite Hne. simpl negb.
  rewrite (bind_returns _ _ _ _ _ (for_each_drawn_chars _ _ Hne w)).
  unfold ret. change (lit "") with (@nil codepoint).
  rewrite join_empty_sep, length_range, concat_singletons. reflexivity.
Qed.



(** X2.  [generate_password] does not check the length: with some category
    switched on and a length of zero or below, it returns the empty string,
    draws nothing and raises nothing. *)
Theorem generate_password_nonpositive_length (w : world) :
  some_category (self w) ->
  PG.length (self w) <= 0 ->
  generate_password w = (Return [], w).
Proof.
  intros Hcat Hlen. rewrite (generate_password_drawn_chars w Hcat).
  replace (Z.to_nat (PG.length (self w))) with O by lia.
  now rewrite drawn_0.
Qed.

Lemma generate_password_nonpositive_length_witness :
  some_category (self world_length_0)
  /\ PG.length (self world_length_0) <= 0
  /\ generate_password world_length_0 = (Return [], world_length_0).
Proof.
  assert (some_category (self world_length_0)) as Hcat by (left; reflexivity).
  assert (PG.length (self world_length_0) <= 0) as Hlen by (simpl; lia).
  split; [exact Hcat|]. split; [exact Hlen|].
  apply (generate_password_nonpositive_length world_length_0); assumption.
Defined.

(** ** The pool *)

Lemma distinct_NoDup (s : str) : distinct s = true -> NoDup s.
Proof.
  induction s as [|c s IH]; simpl; intros H; [constructor|].
  apply andb_true_iff in H. destruct H as [Hc Hs].
  constructor; [|auto].
  intros Hin. apply contains_In in Hin. rewrite Hin in Hc. discriminate.
Qed.

(** X3.  Whatever the flags, no character occurs twice in the pool, and
    the pool holds 26 characters for the uppercase letters, 26 for the
    lowercase letters, 10 for the digits and 32 for the symbols that are
    switched on: a uniform index is a uniform character. *)
Theorem charset_has_no_duplicate (g : PG.t) :
  NoDup (charset_of g) /\ len (charset_of g) = pool_size g.
Proof.
  unfold charset_of, pool_size.
  destruct (PG.include_uppercase g), (PG.include_lowercase g),
    (PG.include_numbers g), (PG.include_symbols g);
    (split; [apply distinct_NoDup; vm_compute; reflexivity | reflexivity]).
Qed.

(** ** The levels *)


(** ** More on the assessor *)

Lemma any_app {A} (f : A -> bool) (p q : list A) :
  any f (p ++ q) = any f p || any f q.
Proof.
  induction p as [|a p IH]; simpl; [reflexivity|].
  destruct (f a); [reflexivity | exact IH].
Qed.

Section AssessorMore.
Context {unicode : UnicodeData}.

Lemma raw_score_app (p q : str) : raw_score p <= raw_score (p ++ q).
Proof.
  unfold raw_score. rewrite !any_app.
  assert (len p <= len (p ++ q)) as Hlen
    by (unfold len; rewrite length_app; lia).
  destruct (len p >=? 12) eqn:Hp12, (len p >=? 16) eqn:Hp16,
    (len (p ++ q) >=? 12) eqn:Hq12, (len (p ++ q) >=? 16) eqn:Hq16;
    rewrite ?Z.geb_le, ?Z.geb_leb, ?Z.leb_gt in *; try lia;
    destruct (any isupper p), (any islower p), (any isdigit p),
      (any (contains PyString.punctuation) p); simpl;
    destruct (any isupper q), (any islower q), (any isdigit q),
      (any (contains PyString.punctuation) q); simpl; lia.
Qed.

(** X5.  Appending characters to a password never lowers its level. *)
Theorem assess_strength_append (p q : str) (w : world) :
  exists level_p level_pq,
    assess_strength p w = (Return level_p, w)
    /\ assess_strength (p ++ q) w = (Return level_pq, w)
    /\ value level_p <= value level_pq.
Proof.
  destruct (assess_strength_returns p) as (lp & Hvp & Hrp).
  destruct (assess_strength_returns (p ++ q)) as (lq & Hvq & Hrq).
  exists lp, lq. split; [apply Hrp|]. split; [apply Hrq|].
  pose proof (raw_score_app p q). lia.
Qed.

(** X6.  A password that holds an uppercase letter, a lowercase letter, a
    digit and a symbol is [VERY_STRONG] whatever its length: the four
    class points reach the clamp without a length point. *)
Theorem assess_strength_four_classes (p : str) (w : world) :
  any isupper p = true ->
  any islower p = true ->
  any isdigit p = true ->
  any (contains PyString.punctuation) p = true ->
  assess_strength p w = (Return VERY_STRONG, w).
Proof.
  intros Hu Hl Hd Hs.
  destruct (assess_strength_returns p) as (level & Hval & Hrun).
  rewrite Hrun. do 2 f_equal. apply value_inj. rewrite Hval.
  unfold raw_score. rewrite Hu, Hl, Hd, Hs.
  destruct (len p >=? 12), (len p >=? 16); reflexivity.
Qed.

(** X7.  A password is [VERY_WEAK] exactly when it is shorter than 12
    characters and holds no uppercase letter, no lowercase letter, no digit
    and no symbol. *)
Theorem assess_strength_very_weak_iff (p : str) (w : world) :
  assess_strength p w = (Return VERY_WEAK, w)
  <-> len p < 12
      /\ any isupper p = false
      /\ any islower p = false
      /\ any isdigit p = false
      /\ any (contains PyString.punctuation) p = false.
Proof.
  destruct (assess_strength_returns p) as (level & Hval & Hrun).
  rewrite Hrun. unfold raw_score in Hval.
  split.
  - intros [= ->]. simpl in Hval.
    destruct (len p >=? 12) eqn:H12, (len p >=? 16) eqn:H16;
      rewrite ?Z.geb_le, ?Z.geb_leb, ?Z.leb_gt in *;
      destruct (any isupper p), (any islower p), (any isdigit p),
        (any (contains PyString.punctuation) p);
      try (exfalso; lia); repeat split; lia.
  - intros (Hlen & Hu & Hl & Hd & Hs). do 2 f_equal. apply value_inj.
    rewrite Hval, Hu, Hl, Hd, Hs.
    destruct (len p >=? 12) eqn:H12, (len p >=? 16) eqn:H16;
      rewrite ?Z.geb_le, ?Z.geb_leb, ?Z.leb_gt in *;
      try (exfalso; lia); reflexivity.
Qed.

End AssessorMore.

Lemma assess_strength_four_classes_witness :
  any (@isupper ascii_table) short_mixed = true
  /\ any (@islower ascii_table) short_mixed = true
  /\ any (@isdigit ascii_table) short_mixed = true
  /\ any (contains PyString.punctuation) short_mixed = true
  /\ @assess_strength ascii_table short_mixed world0
     = (Return VERY_STRONG, world0).
Proof.
  repeat (split; [reflexivity|]).
  apply (@assess_strength_four_classes ascii_table short_mixed world0);
    reflexivity.
Defined.

(** ** The strength of a generated password *)

Lemma classes_eqb_eq (x y : bool * bool * bool * bool) :
  classes_eqb x y = true -> x = y.
Proof.
  destruct x as [[[a1 b1] c1] d1], y as [[[a2 b2] c2] d2]. unfold classes_eqb.
  rewrite !andb_true_iff. intros [[[Ha Hb] Hc] Hd].
  apply eqb_prop in Ha, Hb, Hc, Hd. now subst.
Qed.

Lemma set_in_classes_spec (set : str) (k : bool * bool * bool * bool) :
  set_in_classes set k = true ->
  forall c, In c set -> (c < 128)%N /\ ascii_classes c = k.
Proof.
  unfold set_in_classes. rewrite forallb_forall. intros H c Hc.
  specialize (H c Hc). apply andb_true_iff in H. destruct H as [Hlt Heq].
  split; [now apply N.ltb_lt | now apply classes_eqb_eq].
Qed.

Section GeneratedStrength.
Context {unicode : UnicodeData}.

(** On an ASCII character every table answers as the ASCII table. *)
Lemma classes_ascii (c : codepoint) :
  (c < 128)%N ->
  (isupper c, islower c, isdigit c, contains PyString.punctuation c)
  = ascii_classes c.
Proof.
  intros Hc. unfold ascii_classes.
  rewrite (isupper_ascii c Hc), (islower_ascii c Hc), (isdigit_ascii c Hc).
  reflexivity.
Qed.

(** A character of the pool passes the test of its own category and of no
    other, and its category is switched on. *)
Lemma pool_char_classes (g : PG.t) (c : codepoint) :
  In c (charset_of g) ->
  (isupper c = true -> PG.include_uppercase g = true)
  /\ (islower c = true -> PG.include_lowercase g = true)
  /\ (isdigit c = true -> PG.include_numbers g = true)
  /\ (contains PyString.punctuation c = true -> PG.include_symbols g = true)
  /\ (isupper c = true \/ islower c = true \/ isdigit c = true
      \/ contains PyString.punctuation c = true).
Proof.
  intros Hin. apply charset_of_enabled in Hin.
  destruct Hin as [[Hf Hc] | [[Hf Hc] | [[Hf Hc] | [Hf Hc]]]].
  - destruct (set_in_classes_spec PyString.ascii_uppercase
                (true, false, false, false) eq_refl c Hc) as [Hlt Hk].
    pose proof (classes_ascii c Hlt) as Hcl. rewrite Hk in Hcl.
    injection Hcl as -> -> -> ->. repeat split; auto; discriminate.
  - destruct (set_in_classes_spec PyString.ascii_lowercase
                (false, true, false, false) eq_refl c Hc) as [Hlt Hk].
    pose proof (classes_ascii c Hlt) as Hcl. rewrite Hk in Hcl.
    injection Hcl as -> -> -> ->. repeat split; auto; discriminate.
  - destruct (set_in_classes_spec PyString.digits
                (false, false, true, false) eq_refl c Hc) as [Hlt Hk].
    pose proof (classes_ascii c Hlt) as Hcl. rewrite Hk in Hcl.
    injection Hcl as -> -> -> ->. repeat split; auto; discriminate.
  - destruct (set_in_classes_spec PyString.punctuation
                (false, false, false, true) eq_refl c Hc) as [Hlt Hk].
    pose proof (classes_ascii c Hlt) as Hcl. rewrite Hk in Hcl.
    injection Hcl as -> -> -> ->. repeat split; auto 6; discriminate.
Qed.

Lemma any_pool_flag (g : PG.t) (f : codepoint -> bool) (flag : bool)
  (password : str) :
  Forall (fun c => In c (charset_of g)) password ->
  (forall c, In c (charset_of g) -> f c = true -> flag = true) ->
  (if any f password then 1 else 0) <= (if flag then 1 else 0).
Proof.
  intros Hall Hf. destruct (any f password) eqn:Hany.
  - apply any_true_iff in Hany. destruct Hany as (c & Hc & Hfc).
    rewrite Forall_forall in Hall. rewrite (Hf c (Hall c Hc) Hfc). lia.
  - destruct flag; lia.
Qed.

Lemma raw_score_generated (g : PG.t) (password : str) :
  Forall (fun c => In c (charset_of g)) password ->
  password <> [] ->
  length_points (len password) + 1 <= raw_score password
  <= length_points (len password) + enabled_count g.
Proof.
  intros Hall Hne. unfold raw_score, length_points, enabled_count.
  pose proof (any_pool_flag g isupper (PG.include_uppercase g) password Hall
                (fun c Hc => proj1 (pool_char_classes g c Hc))) as Hu.
  pose proof (any_pool_flag g islower (PG.include_lowercase g) password Hall
                (fun c Hc => proj1 (proj2 (pool_char_classes g c Hc)))) as Hl.
  pose proof (any_pool_flag g isdigit (PG.include_numbers g) password Hall
                (fun c Hc => proj1 (proj2 (proj2 (pool_char_classes g c Hc)))))
    as Hd.
  pose proof (any_pool_flag g (contains PyString.punctuation)
                (PG.include_symbols g) password Hall
                (fun c Hc =>
                   proj1 (proj2 (proj2 (proj2 (pool_char_classes g c Hc))))))
    as Hs.
  split; [|lia].
  destruct password as [|c rest]; [contradiction|].
  inversion Hall as [|? ? Hc _]; subst.
  destruct (pool_char_classes g c Hc) as (_ & _ & _ & _ & Hone).
  cbn [any].
  destruct Hone as [H | [H | [H | H]]]; rewrite H;
    repeat match goal with
           | |- context [if ?b then _ else _] => destruct b
           end; lia.
Qed.

(** X8.  A password generated with some category switched on and a length
    of at least 1 is never [VERY_WEAK]: its level is at least the length
    points plus one, and at most the length points plus the number of
    categories switched on, both clamped at 4. *)
Theorem generated_password_strength (w : world) :
  some_category (self w) ->
  1 <= PG.length (self w) ->
  exists password level w',
    generate_password w = (Return password, w')
    /\ assess_strength password w' = (Return level, w')
    /\ Z.min (length_points (PG.length (self w)) + 1) 4 <= value level
    /\ value level
       <= Z.min (length_points (PG.length (self w)) + enabled_count (self w)) 4.
Proof.
  intros Hcat Hlen.
  destruct (generate_password_returns w Hcat) as (password & Hgen & Hl & Hall).
  destruct (assess_strength_returns password) as (level & Hval & Hrun).
  exists password, level. eexists. split; [exact Hgen|]. split; [apply Hrun|].
  assert (password <> []) as Hne.
  { intros ->. unfold len in Hl. simpl in Hl. lia. }
  pose proof (raw_score_generated (self w) password Hall Hne) as Hb.
  replace (len password) with (PG.length (self w)) in Hb by lia.
  lia.
Qed.

End GeneratedStrength.

Lemma generated_password_strength_witness :
  some_category (self world0)
  /\ 1 <= PG.length (self world0)
  /\ exists password level w',
       generate_password world0 = (Return password, w')
       /\ @assess_strength ascii_table password w' = (Return level, w')
       /\ Z.min (length_points (PG.length (self world0)) + 1) 4 <= value level
       /\ value level
          <= Z.min (length_points (PG.length (self world0))
                    + enabled_count (self world0)) 4.
Proof.
  assert (1 <= PG.length (self world0)) as Hlen by (simpl; lia).
  split; [exact world0_some_category|]. split; [exact Hlen|].
  apply (@generated_password_strength ascii_table world0);
    [exact world0_some_category | exact Hlen].
Defined.

(** ** More on the command line *)

Lemma in_bounds_dec (lo hi n : Z) : {lo <= n <= hi} + {~ (lo <= n <= hi)}.
Proof.
  destruct (Z_le_dec lo n); [|right; lia].
  destruct (Z_le_dec n hi); [left; lia | right; lia].
Qed.

Lemma configured_category_cases (args : Namespace.t) (g : PG.t) :
  requests_category args \/ no_category (configured args g).
Proof.
  destruct (category_cases (configured args g)) as [H | H];
    [left; exact H | right; exact H].
Qed.

Lemma requests_no_category (args : Namespace.t) (g : PG.t) :
  requests_category args -> no_category (configured args g) -> False.
Proof.
  unfold requests_category, no_category, configured. simpl.
  intros [H | [H | [H | H]]] (Hu & Hl & Hn & Hs); congruence.
Qed.

Section RunMore.
Context {unicode : UnicodeData}.





(** X10.  The exit status of the program on a parsed command line is 0 or
    1, and it is 0 exactly when the help is asked for, or the length lies
    in [6, 32] and some category is left switched on. *)
Theorem main_exit_status (args : Namespace.t) (pool : entropy) :
  (exit_status (fst (main (ret args) pool)) = 0
   <-> Namespace.help args = true
       \/ (6 <= Namespace.length args <= 32 /\ requests_category args))
  /\ (exit_status (fst (main (ret args) pool)) = 0
      \/ exit_status (fst (main (ret args) pool)) = 1).
Proof.
  unfold main. set (w := mkWorld PG.__init__ pool []).
  destruct (Namespace.help args) eqn:Hhelp.
  - rewrite (run_help args w Hhelp). simpl. split; [|auto].
    split; auto.
  - destruct (in_bounds_dec 6 32 (Namespace.length args)) as [Hin | Hout].
    + destruct (configured_category_cases args (self w)) as [Hcat | Hnone].
      * destruct (run_generates args w Hhelp Hin Hcat)
          as (password & level & Hrun & _).
        rewrite Hrun. simpl. split; [|auto]. split; auto.
      * rewrite (run_no_category args w Hhelp Hin Hnone). simpl.
        split; [|auto]. split; [discriminate|].
        intros [H | [_ Hcat]]; [discriminate|].
        exfalso. exact (requests_no_category _ _ Hcat Hnone).
    + rewrite (run_rejects args w Hhelp Hout). simpl.
      split; [|auto]. split; [discriminate|].
      intros [H | [Hin _]]; [discriminate | contradiction].
Qed.

(** X11.  With [--help] the program shows the help and does nothing else,
    whatever the length and the flags on the command line: the length is
    not tested, [self] keeps its initial fields, no character is drawn and
    the exit status is 0. *)
Theorem main_help (args : Namespace.t) (pool : entropy) :
  Namespace.help args = true ->
  main (ret args) pool = (Return tt, mkWorld PG.__init__ pool help_text)
  /\ display_help (mkWorld PG.__init__ pool [])
     = (Return tt, mkWorld PG.__init__ pool help_text)
  /\ exit_status (fst (main (ret args) pool)) = 0.
Proof.
  intros Hhelp. unfold main.
  rewrite (run_help args _ Hhelp), display_help_wrote.
  repeat split.
Qed.

(** X12.  When the length passes the test but every category is switched
    off, the failure comes after [self] was overwritten: the program
    writes the generator's error message and the help, draws nothing,
    leaves with status 1, and [self] holds the length and the flags of the
    command line. *)
Theorem main_no_category (args : Namespace.t) (pool : entropy) :
  Namespace.help args = false ->
  6 <= Namespace.length args <= 32 ->
  no_category (configured args PG.__init__) ->
  main (ret args) pool
  = (Raise (SystemExit 1),
     mkWorld
       (PG.mk (Namespace.length args) false false false false 6 32)
       pool
       ((NL ++ lit "Error: At least one character type must be selected")
        ++ NL ++ help_text))
  /\ exit_status (fst (main (ret args) pool)) = 1.
Proof.
  intros Hhelp Hin Hnone. unfold main.
  rewrite (run_no_category args (mkWorld PG.__init__ pool []) Hhelp Hin Hnone).
  destruct Hnone as (Hu & Hl & Hn & Hs).
  unfold configured in *. simpl in Hu, Hl, Hn, Hs.
  unfold wrote, with_self, configured. simpl self. rewrite Hu, Hl, Hn, Hs.
  split; reflexivity.
Qed.

(** X13.  A successful run reports what it computed: the password on the
    second line is the one [generate_password] returns for the
    configuration copied from the command line, and the meter below it is
    the one of the level [assess_strength] gives to that very password. *)
Theorem main_reports_assessment (args : Namespace.t) (pool : entropy) :
  Namespace.help args = false ->
  6 <= Namespace.length args <= 32 ->
  requests_category args ->
  exists password level next,
    generate_password (mkWorld (configured args PG.__init__) pool [])
    = (Return password, mkWorld (configured args PG.__init__) next [])
    /\ assess_strength password
         (mkWorld (configured args PG.__init__) next [])
       = (Return level, mkWorld (configured args PG.__init__) next [])
    /\ stdout (snd (main (ret args) pool))
       = (NL ++ ESC ++ lit "[1mGenerated Password:" ++ ESC ++ lit "[0m") ++ NL
         ++ (ESC ++ lit "[36m" ++ password ++ ESC ++ lit "[0m") ++ NL
         ++ ((NL ++ lit "Password Strength:") ++ NL
             ++ (color_of level ++ meter_of level ++ lit " " ++ label_of level
                 ++ ESC ++ lit "[0m") ++ NL)
         ++ settings_lines (configured args PG.__init__).
Proof.
  intros Hhelp Hin Hcat. unfold main.
  destruct (run_generates args (mkWorld PG.__init__ pool []) Hhelp Hin Hcat)
    as (password & level & Hrun & Hgen & Hassess & _).
  exists password, level. eexists.
  split; [exact Hgen|]. split; [apply Hassess|].
  rewrite Hrun. reflexivity.
Qed.

End RunMore.

Lemma main_help_witness :
  Namespace.help args_help = true
  /\ @main ascii_table (ret args_help) pool0
     = (Return tt, mkWorld PG.__init__ pool0 help_text)
  /\ display_help (mkWorld PG.__init__ pool0 [])
     = (Return tt, mkWorld PG.__init__ pool0 help_text)
  /\ exit_status (fst (@main ascii_table (ret args_help) pool0)) = 0.
Proof.
  split; [reflexivity|].
  apply (@main_help ascii_table args_help pool0). reflexivity.
Defined.

Lemma main_no_category_witness :
  Namespace.help args_6_none = false
  /\ 6 <= Namespace.length args_6_none <= 32
  /\ no_category (configured args_6_none PG.__init__)
  /\ @main ascii_table (ret args_6_none) pool0
     = (Raise (SystemExit 1),
        mkWorld
          (PG.mk (Namespace.length args_6_none) false false false false 6 32)
          pool0
          ((NL ++ lit "Error: At least one character type must be selected")
           ++ NL ++ help_text))
  /\ exit_status (fst (@main ascii_table (ret args_6_none) pool0)) = 1.
Proof.
  assert (6 <= Namespace.length args_6_none <= 32) as Hin by (simpl; lia).
  assert (no_category (configured args_6_none PG.__init__)) as Hnone
    by (repeat split; reflexivity).
  split; [reflexivity|]. split; [exact Hin|]. split; [exact Hnone|].
  apply (@main_no_category ascii_table args_6_none pool0 eq_refl Hin Hnone).
Defined.

Lemma main_reports_assessment_witness :
  Namespace.help args_digits = false
  /\ 6 <= Namespace.length args_digits <= 32
  /\ requests_category args_digits
  /\ exists password level next,
       generate_password (mkWorld (configured args_digits PG.__init__) pool0 [])
       = (Return password, mkWorld (configured args_digits PG.__init__) next [])
       /\ @assess_strength ascii_table password
            (mkWorld (configured args_digits PG.__init__) next [])
          = (Return level, mkWorld (configured args_digits PG.__init__) next [])
       /\ stdout (snd (@main ascii_table (ret args_digits) pool0))
          = (NL ++ ESC ++ lit "[1mGenerated Password:" ++ ESC ++ lit "[0m") ++ NL
            ++ (ESC ++ lit "[36m" ++ password ++ ESC ++ lit "[0m") ++ NL
            ++ ((NL ++ lit "Password Strength:") ++ NL
                ++ (color_of level ++ meter_of level ++ lit " "
                    ++ label_of level ++ ESC ++ lit "[0m") ++ NL)
            ++ settings_lines (configured args_digits PG.__init__).
Proof.
  assert (6 <= Namespace.length args_digits <= 32) as Hin by (simpl; lia).
  assert (requests_category args_digits) as Hcat
    by (right; right; left; reflexivity).
  split; [reflexivity|]. split; [exact Hin|]. split; [exact Hcat|].
  apply (@main_reports_assessment ascii_table args_digits pool0 eq_refl Hin Hcat).
Defined.

(** X14.  The line of the character types is stripped as a whole: unlike
    the length line it loses its two-blank indent, it never ends in a
    blank, it is the bare heading when no category is on, and the blank
    that separates two names stays where a name between them is missing. *)
Theorem character_types_stripped (g : PG.t) :
  exists names,
    PG.character_types g = lit "Character types:" ++ names
    /\ strip (PG.character_types g) = PG.character_types g
    /\ (no_category g -> names = [])
    /\ (enabled_count g = 4 ->
        names = lit " Uppercase Lowercase Numbers Symbols")
    /\ (PG.include_uppercase g = true -> PG.include_lowercase g = false ->
        PG.include_numbers g = true -> PG.include_symbols g = false ->
        names = lit " Uppercase  Numbers").
Proof.
  destruct g as [l u lo n s mn mx].
  unfold no_category, enabled_count, PG.character_types. cbn [PG.include_uppercase
    PG.include_lowercase PG.include_numbers PG.include_symbols].
  destruct u, lo, n, s; eexists;
    (split; [vm_compute; reflexivity|]);
    (split; [vm_compute; reflexivity|]);
    repeat split; intros; try reflexivity;
    try discriminate; try lia;
    repeat match goal with
           | H : _ /\ _ |- _ => destruct H
           end; discriminate.
Qed.

(** ** Running a generator again *)

Section RunAgain.
Context {unicode : UnicodeData}.

Lemma run_same_after_test (args : Namespace.t) (w1 w2 : world) :
  Namespace.help args = false ->
  PG.min_length (self w1) <= Namespace.length args <= PG.max_length (self w1) ->
  PG.min_length (self w2) <= Namespace.length args <= PG.max_length (self w2) ->
  with_self (configured args (self w1)) w1
  = with_self (configured args (self w2)) w2 ->
  run (ret args) w1 = run (ret args) w2.
Proof.
  intros Hhelp Hin1 Hin2 Hsame. unfold run, try_except.
  rewrite (bind_returns (ret args) _ w1 w1 args eq_refl).
  rewrite (bind_returns (ret args) _ w2 w2 args eq_refl).
  rewrite Hhelp.
  rewrite (bind_returns get_self _ w1 w1 (self w1) eq_refl).
  rewrite (bind_returns get_self _ w2 w2 (self w2) eq_refl).
  apply in_bounds_test in Hin1, Hin2. rewrite Hin1, Hin2.
  rewrite (bind_returns (ret tt) _ w1 w1 tt eq_refl).
  rewrite (bind_returns (ret tt) _ w2 w2 tt eq_refl).
  rewrite !run_configures. rewrite Hsame. reflexivity.
Qed.

(** X15.  [run] overwrites the length and the four flags before it uses
    them: two generators that differ only in these fields give, on the
    same command line, the same outcome, the same output and the same
    draws.  Only [min_length] and [max_length] of an earlier state count. *)
Theorem run_ignores_previous_settings (args : Namespace.t) (w1 w2 : world) :
  PG.min_length (self w1) = PG.min_length (self w2) ->
  PG.max_length (self w1) = PG.max_length (self w2) ->
  urandom w1 = urandom w2 ->
  stdout w1 = stdout w2 ->
  fst (run (ret args) w1) = fst (run (ret args) w2)
  /\ stdout (snd (run (ret args) w1)) = stdout (snd (run (ret args) w2))
  /\ urandom (snd (run (ret args) w1)) = urandom (snd (run (ret args) w2)).
Proof.
  intros Hmin Hmax Hpool Hout.
  destruct (Namespace.help args) eqn:Hhelp.
  - rewrite !run_help by assumption. simpl. rewrite Hout, Hpool. auto.
  - destruct (in_bounds_dec (PG.min_length (self w2)) (PG.max_length (self w2))
                (Namespace.length args)) as [Hin | Hbad].
    + assert (with_self (configured args (self w1)) w1
              = with_self (configured args (self w2)) w2) as Hsame.
      { unfold with_self, configured. now rewrite Hmin, Hmax, Hpool, Hout. }
      rewrite (run_same_after_test args w1 w2 Hhelp) by
        first [assumption | rewrite Hmin, Hmax; exact Hin].
      auto.
    + rewrite (run_rejects args w2 Hhelp Hbad).
      rewrite (run_rejects args w1 Hhelp) by (rewrite Hmin, Hmax; exact Hbad).
      simpl. unfold length_error. rewrite Hmin, Hmax, Hout, Hpool. auto.
Qed.

End RunAgain.

Lemma run_ignores_previous_settings_witness :
  PG.min_length (self world0) = PG.min_length (self world_off)
  /\ PG.max_length (self world0) = PG.max_length (self world_off)
  /\ urandom world0 = urandom world_off
  /\ stdout world0 = stdout world_off
  /\ fst (@run ascii_table (ret args_digits) world0)
     = fst (@run ascii_table (ret args_digits) world_off)
  /\ stdout (snd (@run ascii_table (ret args_digits) world0))
     = stdout (snd (@run ascii_table (ret args_digits) world_off))
  /\ urandom (snd (@run ascii_table (ret args_digits) world0))
     = urandom (snd (@run ascii_table (ret args_digits) world_off)).
Proof.
  do 4 (split; [reflexivity|]).
  apply (@run_ignores_previous_settings ascii_table args_digits
           world0 world_off); reflexivity.
Defined.
